(** * practice-timer: the timer hook and its display

    A shallow embedding of [components/timer] (the [useTimer] hook,
    [formatTime], and the effect and status text of [TimerDisplay]).

    JavaScript numbers that hold second counts are modelled as [Z]; the
    embedding is exact on the safe-integer range, which is where a counter
    that starts at 0 and moves by one per second lives.  React state is a
    record, every [setX] call is a record update, and a firing of the
    interval callback is one atomic state transformer. *)

From Stdlib Require Import ZArith Bool List Lia.
From Stdlib Require Import Strings.String Strings.Ascii.
From Stdlib Require Import Numbers.DecimalString Numbers.DecimalZ.
From Stdlib Require Import QArith Lqa.
Import ListNotations.

Open Scope Z_scope.

(* ================================================================== *)
(** ** useTimer: state *)
(* ================================================================== *)

(** The four [useState] cells of [useTimer]. *)
Record TimerState : Type := mkTimer {
  seconds        : Z;
  isRunning      : bool;
  isCountingDown : bool;
  isAutoRestart  : bool
}.

(** [useState(0)], [useState(false)] three times. *)
Definition initial : TimerState := mkTimer 0 false false false.

(** The state setters.  [setSeconds] and [setIsAutoRestart] are used with
    updater functions in the source, the other two with plain values. *)
Definition setSeconds (f : Z -> Z) (s : TimerState) : TimerState :=
  mkTimer (f (seconds s)) (isRunning s) (isCountingDown s) (isAutoRestart s).

Definition setIsRunning (b : bool) (s : TimerState) : TimerState :=
  mkTimer (seconds s) b (isCountingDown s) (isAutoRestart s).

Definition setIsCountingDown (b : bool) (s : TimerState) : TimerState :=
  mkTimer (seconds s) (isRunning s) b (isAutoRestart s).

Definition setIsAutoRestart (f : bool -> bool) (s : TimerState) : TimerState :=
  mkTimer (seconds s) (isRunning s) (isCountingDown s) (f (isAutoRestart s)).

(* ================================================================== *)
(** ** useTimer: the interval effect *)
(* ================================================================== *)

(** The callback that the effect hands to [setInterval].  The countdown
    callback closes over the [isAutoRestart] of the render that installed
    it; the effect lists [isAutoRestart] among its dependencies, so the
    captured value is the current one. *)
Inductive Interval : Type :=
  | CountUp
  | CountDown (autoRestart : bool).

(** Which interval the effect installs: [isRunning && !isCountingDown],
    else [isCountingDown], else none. *)
Definition scheduled (s : TimerState) : option Interval :=
  if isRunning s && negb (isCountingDown s) then Some CountUp
  else if isCountingDown s then Some (CountDown (isAutoRestart s))
  else None.

(** Body of the countdown updater:
    [if (prev <= 0) { setIsCountingDown(false);
                      if (isAutoRestart) setIsRunning(true); return 0 }
     return prev - 1]. *)
Definition countdownCallback (autoRestart : bool) (s : TimerState) : TimerState :=
  let prev := seconds s in
  if prev <=? 0 then
    let s1 := setIsCountingDown false s in
    let s2 := if autoRestart then setIsRunning true s1 else s1 in
    setSeconds (fun _ => 0) s2
  else
    setSeconds (fun _ => prev - 1) s.

Definition fire (i : Interval) (s : TimerState) : TimerState :=
  match i with
  | CountUp => setSeconds (fun prev => prev + 1) s
  | CountDown autoRestart => countdownCallback autoRestart s
  end.

(** One elapsed period of the installed interval.  With no interval
    installed nothing fires. *)
Definition tick (s : TimerState) : TimerState :=
  match scheduled s with
  | Some i => fire i s
  | None => s
  end.

Definition ticks (n : nat) (s : TimerState) : TimerState := Nat.iter n tick s.

(* ================================================================== *)
(** ** useTimer: commands *)
(* ================================================================== *)

Definition start (s : TimerState) : TimerState :=
  if negb (isRunning s) && negb (isCountingDown s) then setIsRunning true s
  else s.

Definition stop (s : TimerState) : TimerState :=
  if isRunning s then
    let s1 := setIsRunning false s in
    if 0 <? seconds s then setIsCountingDown true s1 else s1
  else s.

Definition reset (s : TimerState) : TimerState :=
  setSeconds (fun _ => 0) (setIsCountingDown false (setIsRunning false s)).

Definition toggleAutoRestart (s : TimerState) : TimerState :=
  setIsAutoRestart negb s.

(** Everything that can happen to a mounted timer. *)
Inductive Event : Type :=
  | Start
  | Stop
  | Reset
  | ToggleAutoRestart
  | Tick.

Definition step (e : Event) (s : TimerState) : TimerState :=
  match e with
  | Start => start s
  | Stop => stop s
  | Reset => reset s
  | ToggleAutoRestart => toggleAutoRestart s
  | Tick => tick s
  end.

Definition run (es : list Event) (s : TimerState) : TimerState :=
  fold_left (fun acc e => step e acc) es s.

Definition reachable (s : TimerState) : Prop :=
  exists es, run es initial = s.

(* ================================================================== *)
(** ** TimerDisplay: status text and mode *)
(* ================================================================== *)

(** [getStatusText], over the three props of [TimerDisplay]. *)
Definition getStatusText (secs : Z) (running countingDown : bool) : string :=
  if countingDown then "Counting Down"%string
  else if running then "Running"%string
  else if secs =? 0 then "Ready"%string
  else "Stopped"%string.

(** The props [Timer] passes to [TimerDisplay]. *)
Definition displayProps (s : TimerState) : Z * bool * bool :=
  (seconds s, isRunning s, isCountingDown s).

Definition statusOf (s : TimerState) : string :=
  getStatusText (seconds s) (isRunning s) (isCountingDown s).

(** The four modes the status text distinguishes, by the same cascade. *)
Inductive Mode : Type := Ready | Running | CountingDown | Stopped.

Definition mode (s : TimerState) : Mode :=
  if isCountingDown s then CountingDown
  else if isRunning s then Running
  else if seconds s =? 0 then Ready
  else Stopped.

(* ================================================================== *)
(** ** formatTime *)
(* ================================================================== *)

(** [Number.prototype.toString] on an integer: decimal digits, a leading
    minus sign for negatives, ["0"] for zero. *)
Definition Number_toString (n : Z) : string :=
  NilZero.string_of_int (Z.to_int n).

(** The first [n] characters of [pad] repeated for ever, continuing from
    [rest]; empty when [pad] is empty. *)
Fixpoint fillFrom (n : nat) (pad rest : string) : string :=
  match n with
  | O => EmptyString
  | S n' =>
      match rest with
      | String c rest' => String c (fillFrom n' pad rest')
      | EmptyString =>
          match pad with
          | String c pad' => String c (fillFrom n' pad pad')
          | EmptyString => EmptyString
          end
      end
  end.

(** [String.prototype.padStart(targetLength, padString)]. *)
Definition padStart (targetLength : nat) (padString s : string) : string :=
  if (targetLength <=? String.length s)%nat then s
  else (fillFrom (targetLength - String.length s) padString padString ++ s)%string.

(** [mins] is [Math.floor(totalSeconds / 60)], [secs] is the JavaScript
    remainder [totalSeconds % 60], which takes the sign of the dividend. *)
Definition formatTime (totalSeconds : Z) : string :=
  let mins := totalSeconds / 60 in
  let secs := Z.rem totalSeconds 60 in
  (padStart 2 "0" (Number_toString mins) ++ ":" ++
   padStart 2 "0" (Number_toString secs))%string.

(** Reading a run of decimal digits back; [None] on anything else. *)
Definition readDecimal (s : string) : option Z :=
  option_map Z.of_uint (NilZero.uint_of_string s).

(* ================================================================== *)
(** ** TimerDisplay: the progress effect *)
(* ================================================================== *)

Definition RADIUS : Q := 80.

(** The double nearest to pi, as the rational it is. *)
Definition Math_PI : Q := 884279719003555 # 281474976710656.

(** [2 * Math.PI * RADIUS], in exact arithmetic. *)
Definition CIRCUMFERENCE : Q := 2 * Math_PI * RADIUS.

(** [withTiming(toValue, { duration, easing: Easing.out(Easing.cubic) })],
    together with the value the shared value held when it was assigned. *)
Record Timing : Type := mkTiming {
  startValue : Q;
  toValue    : Q;
  duration   : Z
}.

(** [animatedProgress] (the value it reads now and the animation driving
    it, if any) and [prevMinuteRef]. *)
Record DisplayState : Type := mkDisplay {
  progressValue : Q;
  animation     : option Timing;
  prevMinuteRef : Z
}.

(** [useSharedValue(0)], [useRef(0)]. *)
Definition initialDisplay : DisplayState := mkDisplay 0 None 0.

(** [animatedProgress.value = v]: takes hold at once, stops any animation. *)
Definition assignValue (v : Q) (d : DisplayState) : DisplayState :=
  mkDisplay v None (prevMinuteRef d).

(** [animatedProgress.value = withTiming(target, ...)]: eases from the
    value held now. *)
Definition assignTiming (target : Q) (ms : Z) (d : DisplayState) : DisplayState :=
  mkDisplay (progressValue d)
            (Some (mkTiming (progressValue d) target ms))
            (prevMinuteRef d).

Definition setPrevMinute (m : Z) (d : DisplayState) : DisplayState :=
  mkDisplay (progressValue d) (animation d) m.

Definition targetProgress (secs : Z) : Q :=
  (inject_Z (Z.rem secs 60) / 60 * CIRCUMFERENCE)%Q.

(** One run of the [useEffect] body of [TimerDisplay]. *)
Definition progressEffect (secs : Z) (countingDown : bool) (d : DisplayState)
  : DisplayState :=
  let currentMinute := secs / 60 in
  let d1 :=
    if negb (currentMinute =? prevMinuteRef d) && negb countingDown
    then setPrevMinute currentMinute (assignValue 0 d)
    else d in
  assignTiming (targetProgress secs) 300 d1.

(** [strokeDashoffset] of [useAnimatedProps]. *)
Definition strokeDashoffset (d : DisplayState) : Q :=
  (CIRCUMFERENCE - progressValue d)%Q.

(* ================================================================== *)
(** ** TimerDisplay: gradient colours *)
(* ================================================================== *)

Definition MINUTE_COLORS : list (string * string) :=
  [("#9c27b0"%string, "#8b5cf6"%string)].

(** [array[i]] for an integer [i]: [undefined] outside the array. *)
Definition arrayAt {A : Type} (xs : list A) (i : Z) : option A :=
  if i <? 0 then None else nth_error xs (Z.to_nat i).

(** [[startColor, endColor]]: the fixed pair while counting down, otherwise
    [MINUTE_COLORS[currentMinute % MINUTE_COLORS.length]]; [None] is the
    [undefined] the destructuring would fail on. *)
Definition gradientColors (secs : Z) (countingDown : bool)
  : option (string * string) :=
  let currentMinute := secs / 60 in
  let colorIndex := Z.rem currentMinute (Z.of_nat (List.length MINUTE_COLORS)) in
  if countingDown then Some ("#ff6b6b"%string, "#ff8a8a"%string)
  else arrayAt MINUTE_COLORS colorIndex.

(* ================================================================== *)
(** ** Timer: the start/stop button *)
(* ================================================================== *)

(** [label={isRunning ? 'Stop' : 'Start'}]. *)
Definition mainButtonLabel (s : TimerState) : string :=
  if isRunning s then "Stop"%string else "Start"%string.

(** [onPress={isRunning ? stop : start}]. *)
Definition mainButtonPress (s : TimerState) : TimerState :=
  if isRunning s then stop s else start s.

(* ================================================================== *)
(** ** Vocabulary of the properties *)
(* ================================================================== *)

(** What holds of every state an execution can reach: the count is not
    negative, a timer with both flags down is at count 0, and the two flags
    are never up together. *)
Definition timer_inv (s : TimerState) : Prop :=
  0 <= seconds s
  /\ (isRunning s = false -> isCountingDown s = false -> seconds s = 0)
  /\ (isRunning s = true -> isCountingDown s = false).

(** Events other than [start()] and [reset()]. *)
Definition neither_start_nor_reset (e : Event) : Prop :=
  e <> Start /\ e <> Reset.

(** What [TimerDisplay] is given and shows is what it is given and shows
    at mount. *)
Definition shown_as_initial (s : TimerState) : Prop :=
  displayProps s = displayProps initial
  /\ mode s = Ready
  /\ statusOf s = "Ready"%string
  /\ statusOf s <> "Stopped"%string.

(** A field as the label describes it: the decimal digits of [n], with one
    leading zero when there would be a single digit. *)
Definition twoDigits (n : Z) : string :=
  ((if (n <? 10)%Z then "0" else "") ++ Number_toString n)%string.

(** How many events of a list satisfy a test. *)
Definition countEvents (p : Event -> bool) (es : list Event) : nat :=
  List.length (filter p es).

Definition isTick (e : Event) : bool :=
  match e with Tick => true | _ => false end.

Definition isToggle (e : Event) : bool :=
  match e with ToggleAutoRestart => true | _ => false end.

(** One practice session: start, [n] seconds of counting up, stop, and
    [m] further ticks. *)
Definition session (n m : nat) : list Event :=
  [Start] ++ repeat Tick n ++ [Stop] ++ repeat Tick m.

(* ================================================================== *)
(** * Properties of the timer engine *)
(* ================================================================== *)

Local Open Scope string_scope.

(** Case analysis on a state and on the tests the transitions make. *)
Ltac unfold_timer :=
  unfold tick, scheduled, fire, countdownCallback, start, stop, reset,
    toggleAutoRestart, mode, statusOf, getStatusText, displayProps,
    setSeconds, setIsRunning, setIsCountingDown, setIsAutoRestart in *;
  simpl in *.

Ltac split_tests :=
  repeat match goal with
    | |- context [Z.leb ?a ?b] => destruct (Z.leb_spec a b); simpl
    | |- context [Z.ltb ?a ?b] => destruct (Z.ltb_spec a b); simpl
    | |- context [Z.eqb ?a ?b] => destruct (Z.eqb_spec a b); simpl
    | H : context [Z.eqb ?a ?b] |- _ => destruct (Z.eqb_spec a b); simpl in H
    end.

Ltac timer_cases s :=
  destruct s as [n [|] [|] [|]]; unfold_timer; split_tests;
  intros; try discriminate; try lia; auto.

(** *** What a tick does, by mode *)

Lemma mode_Running_inv (s : TimerState) :
  mode s = Running -> isRunning s = true /\ isCountingDown s = false.
Proof. timer_cases s. Qed.

Lemma mode_CountingDown_inv (s : TimerState) :
  mode s = CountingDown <-> isCountingDown s = true.
Proof. split; timer_cases s. Qed.

Lemma tick_running (s : TimerState) :
  isRunning s = true -> isCountingDown s = false ->
  tick s = setSeconds (fun prev => prev + 1) s.
Proof. intros Hr Hc. unfold tick, scheduled. rewrite Hr, Hc. reflexivity. Qed.

Lemma tick_counting_down (s : TimerState) :
  isCountingDown s = true ->
  tick s = countdownCallback (isAutoRestart s) s.
Proof.
  intros Hc. unfold tick, scheduled. rewrite Hc, andb_false_r. reflexivity.
Qed.

Lemma tick_idle (s : TimerState) :
  isRunning s = false -> isCountingDown s = false -> tick s = s.
Proof. intros Hr Hc. unfold tick, scheduled. rewrite Hr, Hc. reflexivity. Qed.

Lemma ticks_S (k : nat) (s : TimerState) : ticks (S k) s = tick (ticks k s).
Proof. reflexivity. Qed.

(** While the count is positive a countdown tick takes one off and touches
    nothing else. *)
Lemma countdown_tick_positive (s : TimerState) :
  isCountingDown s = true -> 0 < seconds s ->
  tick s = setSeconds (fun prev => prev - 1) s.
Proof.
  intros Hc Hpos. rewrite (tick_counting_down s Hc).
  unfold countdownCallback.
  destruct (Z.leb_spec (seconds s) 0); [lia | reflexivity].
Qed.

(** At count 0 (or below) a countdown tick leaves the countdown. *)
Lemma countdown_tick_zero (s : TimerState) :
  isCountingDown s = true -> seconds s <= 0 ->
  tick s = mkTimer 0 (isAutoRestart s || isRunning s) false (isAutoRestart s).
Proof.
  intros Hc Hz. rewrite (tick_counting_down s Hc).
  unfold countdownCallback.
  destruct (Z.leb_spec (seconds s) 0); [|lia].
  destruct s as [n r c [|]]; reflexivity.
Qed.

(** [k] countdown ticks from a count of at least [k]. *)
Lemma countdown_ticks (k : nat) (s : TimerState) :
  isCountingDown s = true -> Z.of_nat k <= seconds s ->
  ticks k s =
  mkTimer (seconds s - Z.of_nat k) (isRunning s) true (isAutoRestart s).
Proof.
  induction k as [|k IH]; intros Hc Hk.
  - destruct s as [n r c a]; simpl in *; subst c.
    unfold ticks; simpl. f_equal. lia.
  - rewrite ticks_S, IH by (auto; lia).
    rewrite countdown_tick_positive by (simpl; auto; lia).
    unfold setSeconds; simpl. f_equal. lia.
Qed.

(** *** Invariant of the reachable states *)

Lemma timer_inv_initial : timer_inv initial.
Proof. repeat split; simpl; auto; lia. Qed.

Lemma timer_inv_step (e : Event) (s : TimerState) :
  timer_inv s -> timer_inv (step e s).
Proof.
  intros (Hn & Hidle & Hexcl).
  destruct e, s as [n [|] [|] [|]]; simpl in *;
    try (specialize (Hexcl eq_refl); discriminate);
    try (specialize (Hidle eq_refl eq_refl));
    unfold timer_inv; unfold_timer; split_tests;
    repeat split; simpl; intros; try discriminate; try lia; auto.
Qed.

Lemma run_app (es1 es2 : list Event) (s : TimerState) :
  run (es1 ++ es2) s = run es2 (run es1 s).
Proof. unfold run. apply fold_left_app. Qed.

Lemma timer_inv_run (es : list Event) (s : TimerState) :
  timer_inv s -> timer_inv (run es s).
Proof.
  revert s. induction es as [|e es IH]; intros s Hs; simpl; auto.
  apply IH, timer_inv_step, Hs.
Qed.

Lemma reachable_inv (s : TimerState) : reachable s -> timer_inv s.
Proof.
  intros [es <-]. apply timer_inv_run, timer_inv_initial.
Qed.


(** *** Stopping a running timer and counting down *)

(** C1, amended.  For every [N > 0]: stopping a timer that is Running at
    count [N] enters CountingDown with the count kept; each of the next [N]
    ticks takes one off while the mode stays CountingDown, so after exactly
    [N] ticks the count is 0 and the mode is still CountingDown; the tick
    after that, number [N + 1], leaves CountingDown with the count at 0. *)
Theorem stop_counts_down_in_N_plus_one_ticks (N : Z) (s : TimerState) :
  0 < N -> mode s = Running -> seconds s = N ->
  mode (stop s) = CountingDown
  /\ seconds (stop s) = N
  /\ (forall k : nat, (k <= Z.to_nat N)%nat ->
        mode (ticks k (stop s)) = CountingDown
        /\ seconds (ticks k (stop s)) = N - Z.of_nat k)
  /\ mode (ticks (S (Z.to_nat N)) (stop s)) <> CountingDown
  /\ seconds (ticks (S (Z.to_nat N)) (stop s)) = 0.
Proof.
  intros HN Hmode Hsec.
  destruct (mode_Running_inv s Hmode) as [Hr Hc].
  assert (Hstop : stop s = mkTimer N false true (isAutoRestart s)).
  { unfold stop. rewrite Hr, Hsec.
    destruct (Z.ltb_spec 0 N); [|lia].
    destruct s as [n r c a]; simpl in *; subst; reflexivity. }
  rewrite Hstop.
  assert (Hk : forall k : nat, (k <= Z.to_nat N)%nat ->
            ticks k (mkTimer N false true (isAutoRestart s)) =
            mkTimer (N - Z.of_nat k) false true (isAutoRestart s)).
  { intros k Hle. rewrite countdown_ticks; simpl; auto; lia. }
  split; [reflexivity|]. split; [reflexivity|]. split.
  - intros k Hle. rewrite (Hk k Hle). split; reflexivity.
  - rewrite ticks_S, (Hk (Z.to_nat N)) by lia.
    rewrite countdown_tick_zero by (simpl; auto; lia).
    destruct (isAutoRestart s); simpl; split;
      solve [intro E; discriminate E | reflexivity].
Qed.

Lemma stop_counts_down_in_N_plus_one_ticks_witness :
  let s := run [Start; Tick; Tick] initial in
  (0 < 2 /\ mode s = Running /\ seconds s = 2)
  /\ mode (stop s) = CountingDown
  /\ mode (ticks 2 (stop s)) = CountingDown
  /\ seconds (ticks 2 (stop s)) = 0
  /\ mode (ticks 3 (stop s)) <> CountingDown
  /\ seconds (ticks 3 (stop s)) = 0.
Proof.
  intro s.
  destruct (stop_counts_down_in_N_plus_one_ticks 2 s)
    as (H1 & _ & H3 & H4 & H5); [lia | reflexivity | reflexivity |].
  destruct (H3 2%nat) as [Ha Hb]; [simpl; lia|].
  split; [split; [lia | split; reflexivity]|].
  split; [exact H1|]. split; [exact Ha|]. split; [exact Hb|].
  split; [exact H4 | exact H5].
Defined.

(** C1 as stated fails: Running at count 1, [stop()], one tick: the count
    is 0 but the mode is still CountingDown. *)
Lemma countdown_not_left_after_N_ticks :
  let s := run [Start; Tick] initial in
  0 < 1 /\ mode s = Running /\ seconds s = 1
  /\ mode (stop s) = CountingDown
  /\ seconds (ticks 1 (stop s)) = 0
  /\ ~ (mode (ticks 1 (stop s)) <> CountingDown).
Proof.
  cbv zeta. repeat split; try reflexivity.
  intros H. apply H. reflexivity.
Qed.

(** *** The end of a countdown *)

(** C2, amended.  With autoRestart on, the tick that finds a countdown at
    count 0 switches to Running and leaves the count at 0; it is the tick
    after that one which yields count 1, still Running. *)
Theorem auto_restart_spends_one_tick_at_zero (s : TimerState) :
  isAutoRestart s = true -> mode s = CountingDown -> seconds s = 0 ->
  mode (tick s) = Running
  /\ seconds (tick s) = 0
  /\ mode (tick (tick s)) = Running
  /\ seconds (tick (tick s)) = 1.
Proof.
  intros Ha Hm Hz. apply mode_CountingDown_inv in Hm.
  rewrite (countdown_tick_zero s Hm) by lia.
  rewrite Ha. simpl. repeat split; reflexivity.
Qed.

Lemma auto_restart_spends_one_tick_at_zero_witness :
  let s := run [ToggleAutoRestart; Start; Tick; Stop; Tick] initial in
  mode (tick s) = Running
  /\ seconds (tick s) = 0
  /\ mode (tick (tick s)) = Running
  /\ seconds (tick (tick s)) = 1.
Proof.
  intro s.
  apply (auto_restart_spends_one_tick_at_zero s); reflexivity.
Defined.

(** C2 as stated fails: autoRestart on, a countdown from 1 has reached 0;
    the very next tick yields count 0, not 1. *)
Lemma auto_restart_next_tick_is_not_one :
  let s := run [ToggleAutoRestart; Start; Tick; Stop; Tick] initial in
  isAutoRestart s = true /\ mode s = CountingDown /\ seconds s = 0
  /\ ~ (seconds (tick s) = 1 /\ mode (tick s) = Running).
Proof.
  cbv zeta. repeat split; try reflexivity.
  intros [H _]. vm_compute in H. discriminate H.
Qed.

Lemma idle_at_zero_stays (es : list Event) (s : TimerState) :
  Forall neither_start_nor_reset es ->
  isRunning s = false -> isCountingDown s = false ->
  displayProps (run es s) = displayProps s.
Proof.
  intros Hes. revert s.
  induction Hes as [|e es [He1 He2] _ IH]; intros s Hr Hc; [reflexivity|].
  simpl.
  assert (Hstep : displayProps (step e s) = displayProps s).
  { destruct e; try congruence; destruct s as [n r c a]; simpl in *; subst;
      reflexivity. }
  injection Hstep as H1 H2 H3.
  rewrite IH by congruence.
  unfold displayProps. congruence.
Qed.

(** C3, amended.  With autoRestart off, the tick that finds a countdown at
    count 0 clears the CountingDown flag and leaves Running clear and the
    count at 0; that state is reported as "Ready", not "Stopped", and it is
    kept under any further ticks, [stop()] and [toggleAutoRestart()] calls,
    until [start()] or [reset()] is called. *)
Theorem countdown_ends_in_ready_without_auto_restart (s : TimerState) :
  reachable s ->
  isAutoRestart s = false -> mode s = CountingDown -> seconds s = 0 ->
  displayProps (tick s) = (0, false, false)
  /\ mode (tick s) = Ready
  /\ statusOf (tick s) = "Ready"
  /\ forall es, Forall neither_start_nor_reset es ->
       displayProps (run es (tick s)) = (0, false, false)
       /\ mode (run es (tick s)) = Ready
       /\ statusOf (run es (tick s)) = "Ready".
Proof.
  intros Hreach Ha Hm Hz.
  pose proof Hm as Hc. apply mode_CountingDown_inv in Hc.
  destruct (reachable_inv s Hreach) as (_ & _ & Hexcl).
  assert (Hr : isRunning s = false).
  { destruct (isRunning s); [specialize (Hexcl eq_refl); congruence | auto]. }
  rewrite (countdown_tick_zero s Hc) by lia. rewrite Ha, Hr. simpl.
  repeat split.
  all: pose proof (idle_at_zero_stays es (mkTimer 0 false false false) H
                     eq_refl eq_refl) as E;
       unfold displayProps in E; simpl in E; injection E as E1 E2 E3;
       unfold mode, statusOf, getStatusText, displayProps;
       rewrite ?E1, ?E2, ?E3; reflexivity.
Qed.

Lemma countdown_ends_in_ready_without_auto_restart_witness :
  let s := run [Start; Tick; Stop; Tick] initial in
  let es := [Tick; Stop; ToggleAutoRestart; Tick] in
  (isAutoRestart s = false /\ mode s = CountingDown /\ seconds s = 0)
  /\ displayProps (tick s) = (0, false, false)
  /\ statusOf (tick s) = "Ready"
  /\ displayProps (run es (tick s)) = (0, false, false)
  /\ statusOf (run es (tick s)) = "Ready".
Proof.
  intros s es.
  destruct (countdown_ends_in_ready_without_auto_restart s)
    as (H1 & _ & H3 & H4);
    [exists [Start; Tick; Stop; Tick]; reflexivity
    | reflexivity | reflexivity | reflexivity |].
  destruct (H4 es) as (H5 & _ & H7).
  { repeat constructor; intro E; discriminate E. }
  split; [repeat split|].
  split; [exact H1|]. split; [exact H3|]. split; [exact H5 | exact H7].
Defined.

(** C3 as stated fails: autoRestart off, a countdown from 1 has reached 0;
    after the next tick both flags are down, and the state is reported as
    "Ready", not as "Stopped". *)
Lemma countdown_end_is_not_reported_stopped :
  let s := run [Start; Tick; Stop; Tick] initial in
  isAutoRestart s = false /\ mode s = CountingDown /\ seconds s = 0
  /\ isRunning (tick s) = false /\ isCountingDown (tick s) = false
  /\ ~ (mode (tick s) = Stopped)
  /\ ~ (statusOf (tick s) = "Stopped").
Proof.
  cbv zeta. repeat split; try reflexivity;
    intros H; vm_compute in H; discriminate H.
Qed.

(** *** The count never goes negative *)

(** C4.  After any sequence of [start], [stop], [reset],
    [toggleAutoRestart] and ticks from the initial state the count is a
    non-negative integer, and a countdown tick yields a non-negative count
    from whatever count it finds. *)
Theorem count_never_negative :
  (forall es : list Event, 0 <= seconds (run es initial))
  /\ (forall s : TimerState,
        isCountingDown s = true -> 0 <= seconds (tick s)).
Proof.
  split.
  - intros es. apply (timer_inv_run es initial timer_inv_initial).
  - intros s Hc. rewrite (tick_counting_down s Hc).
    unfold countdownCallback.
    destruct (Z.leb_spec (seconds s) 0); simpl; [|lia].
    destruct (isAutoRestart s); simpl; lia.
Qed.

Lemma count_never_negative_witness :
  0 <= seconds (run [Start; Tick; Stop; Tick; Tick; Reset] initial)
  /\ 0 <= seconds (tick (mkTimer 0 false true false)).
Proof.
  split.
  - apply (proj1 count_never_negative).
  - apply (proj2 count_never_negative). reflexivity.
Defined.

(** *** Direction of the count *)

(** C5, amended.  In a reachable state, a tick taken while Running raises
    the count by one; a tick taken while CountingDown leaves the count
    non-negative and never raises it: it lowers the count by one when the
    count is positive, and when the count is 0 it keeps it at 0 and leaves
    CountingDown. *)
Theorem tick_direction_by_mode (s : TimerState) :
  reachable s ->
  (mode s = Running ->
     seconds s < seconds (tick s) /\ seconds (tick s) = seconds s + 1)
  /\ (mode s = CountingDown ->
        0 <= seconds s
        /\ 0 <= seconds (tick s) <= seconds s
        /\ (0 < seconds s ->
              seconds (tick s) = seconds s - 1
              /\ mode (tick s) = CountingDown)
        /\ (seconds s = 0 ->
              seconds (tick s) = 0 /\ mode (tick s) <> CountingDown)).
Proof.
  intros Hreach. destruct (reachable_inv s Hreach) as (Hn & _ & _).
  split.
  - intros Hm. destruct (mode_Running_inv s Hm) as [Hr Hc].
    rewrite (tick_running s Hr Hc). simpl. lia.
  - intros Hm. apply mode_CountingDown_inv in Hm.
    split; [exact Hn|].
    destruct (Z.eq_dec (seconds s) 0) as [Hz|Hnz].
    + rewrite (countdown_tick_zero s Hm) by lia. simpl.
      repeat split; try lia.
      destruct (isAutoRestart s || isRunning s); intro E; discriminate E.
    + rewrite (countdown_tick_positive s Hm) by lia. simpl.
      repeat split; try lia.
      unfold mode; simpl. rewrite Hm. reflexivity.
Qed.

Lemma tick_direction_by_mode_witness :
  let up := run [Start; Tick] initial in
  let down := run [Start; Tick; Tick; Stop; Tick] initial in
  let last := run [Start; Tick; Tick; Stop; Tick; Tick] initial in
  (mode up = Running /\ seconds (tick up) = seconds up + 1)
  /\ (mode down = CountingDown /\ 0 < seconds down
      /\ seconds (tick down) = seconds down - 1)
  /\ (mode last = CountingDown /\ seconds last = 0
      /\ seconds (tick last) = 0 /\ mode (tick last) <> CountingDown).
Proof.
  intros up down last.
  assert (Hup : reachable up) by (exists [Start; Tick]; reflexivity).
  assert (Hdown : reachable down)
    by (exists [Start; Tick; Tick; Stop; Tick]; reflexivity).
  assert (Hlast : reachable last)
    by (exists [Start; Tick; Tick; Stop; Tick; Tick]; reflexivity).
  split; [|split].
  - split; [reflexivity|].
    apply (proj1 (tick_direction_by_mode up Hup)). reflexivity.
  - split; [reflexivity|]. split; [reflexivity|].
    destruct (proj2 (tick_direction_by_mode down Hdown) eq_refl)
      as (_ & _ & Hpos & _).
    apply Hpos. reflexivity.
  - split; [reflexivity|]. split; [reflexivity|].
    destruct (proj2 (tick_direction_by_mode last Hlast) eq_refl)
      as (_ & _ & _ & Hzero).
    apply Hzero. reflexivity.
Defined.

(** C5 as stated fails: a countdown from 1 has reached 0 and the mode is
    still CountingDown; the tick taken there does not lower the count. *)
Lemma countdown_tick_at_zero_does_not_decrease :
  let s := run [Start; Tick; Stop; Tick] initial in
  mode s = CountingDown /\ seconds s = 0
  /\ ~ (seconds (tick s) < seconds s).
Proof.
  cbv zeta. repeat split. intros H. vm_compute in H. discriminate H.
Qed.

(** *** reset *)

(** C8.  From any state [reset()] sets the count to 0 and clears the
    Running and CountingDown flags, which is the Ready mode with no interval
    installed, and it leaves the autoRestart flag as it was. *)
Theorem reset_yields_ready_keeps_auto_restart (s : TimerState) :
  seconds (reset s) = 0
  /\ isRunning (reset s) = false
  /\ isCountingDown (reset s) = false
  /\ mode (reset s) = Ready
  /\ scheduled (reset s) = None
  /\ tick (reset s) = reset s
  /\ isAutoRestart (reset s) = isAutoRestart s.
Proof.
  destruct s as [n r c a]. repeat split; reflexivity.
Qed.

(** *** No Stopped at count 0 *)

Lemma idle_at_zero_shown_as_initial (s : TimerState) :
  seconds s = 0 -> isRunning s = false -> isCountingDown s = false ->
  shown_as_initial s.
Proof.
  destruct s as [n r c a]; simpl; intros -> -> ->.
  repeat split. intro E; discriminate E.
Qed.

(** C10.  Every execution that ends with count 0 and both flags down ends
    in a state [TimerDisplay] cannot tell from the initial Ready state, with
    status text "Ready" and not "Stopped"; [reset()], [stop()] while Running
    at count 0, and the tick that ends a countdown with autoRestart off all
    end there. *)
Theorem no_distinct_stopped_at_zero :
  (forall es : list Event,
     seconds (run es initial) = 0 ->
     isRunning (run es initial) = false ->
     isCountingDown (run es initial) = false ->
     shown_as_initial (run es initial))
  /\ (forall s, shown_as_initial (reset s))
  /\ (forall s, mode s = Running -> seconds s = 0 ->
        shown_as_initial (stop s))
  /\ (forall s, reachable s -> mode s = CountingDown -> seconds s = 0 ->
        isAutoRestart s = false -> shown_as_initial (tick s)).
Proof.
  split; [|split; [|split]].
  - intros es. apply idle_at_zero_shown_as_initial.
  - intros s. apply idle_at_zero_shown_as_initial;
      destruct s; reflexivity.
  - intros s Hm Hz. destruct (mode_Running_inv s Hm) as [Hr Hc].
    destruct s as [n r c a]; simpl in *; subst.
    apply idle_at_zero_shown_as_initial; reflexivity.
  - intros s Hreach Hm Hz Ha. apply mode_CountingDown_inv in Hm.
    destruct (reachable_inv s Hreach) as (_ & _ & Hexcl).
    rewrite (countdown_tick_zero s Hm) by lia. rewrite Ha.
    destruct (isRunning s); [specialize (Hexcl eq_refl); congruence|].
    apply idle_at_zero_shown_as_initial; reflexivity.
Qed.

Lemma no_distinct_stopped_at_zero_witness :
  shown_as_initial (run [Start; Tick; Stop; Tick; Tick] initial)
  /\ shown_as_initial (reset (run [Start; Tick] initial))
  /\ shown_as_initial (stop (run [Start] initial))
  /\ shown_as_initial (tick (run [Start; Tick; Stop; Tick] initial)).
Proof.
  destruct no_distinct_stopped_at_zero as (H1 & H2 & H3 & H4).
  split; [|split; [|split]].
  - apply (H1 [Start; Tick; Stop; Tick; Tick]); reflexivity.
  - apply H2.
  - apply H3; reflexivity.
  - apply H4; try reflexivity.
    exists [Start; Tick; Stop; Tick]. reflexivity.
Defined.

(** *** Status text *)

(** C7.  The status text is determined by the two flags and the count:
    "Counting Down" whenever [isCountingDown]; otherwise "Running" whenever
    [isRunning]; otherwise "Ready" at count 0; otherwise "Stopped". *)
Theorem getStatusText_cascade (secs : Z) (running countingDown : bool) :
  (countingDown = true ->
     getStatusText secs running countingDown = "Counting Down")
  /\ (countingDown = false -> running = true ->
        getStatusText secs running countingDown = "Running")
  /\ (countingDown = false -> running = false -> secs = 0 ->
        getStatusText secs running countingDown = "Ready")
  /\ (countingDown = false -> running = false -> secs <> 0 ->
        getStatusText secs running countingDown = "Stopped").
Proof.
  unfold getStatusText. repeat split; intros; subst; try reflexivity.
  destruct (Z.eqb_spec secs 0); [contradiction | reflexivity].
Qed.

Lemma getStatusText_cascade_witness :
  getStatusText 7 true true = "Counting Down"
  /\ getStatusText 7 true false = "Running"
  /\ getStatusText 0 false false = "Ready"
  /\ getStatusText 7 false false = "Stopped".
Proof.
  split; [|split; [|split]].
  - apply (proj1 (getStatusText_cascade 7 true true)). reflexivity.
  - apply (proj1 (proj2 (getStatusText_cascade 7 true false)));
      reflexivity.
  - apply (proj1 (proj2 (proj2 (getStatusText_cascade 0 false false))));
      reflexivity.
  - apply (proj2 (proj2 (proj2 (getStatusText_cascade 7 false false))));
      [reflexivity | reflexivity | lia].
Defined.

(* ================================================================== *)
(** * Properties of formatTime *)
(* ================================================================== *)

(** The decimal numeral behind the text of a non-negative number. *)
Lemma Number_toString_nonneg (n : Z) :
  0 <= n ->
  exists d : Decimal.uint,
    d <> Decimal.Nil
    /\ Number_toString n = NilEmpty.string_of_uint d
    /\ Z.of_uint d = n.
Proof.
  intros Hn. destruct n as [|p|p]; [| |lia].
  - exists (Decimal.D0 Decimal.Nil).
    repeat split. intro E; discriminate E.
  - exists (Pos.to_uint p).
    pose proof (DecimalPos.Unsigned.to_uint_nonnil p) as Hnil.
    repeat split; auto.
    + unfold Number_toString; simpl. unfold NilZero.string_of_uint.
      destruct (Pos.to_uint p); try reflexivity. contradiction.
    + unfold Z.of_uint. rewrite DecimalPos.Unsigned.of_to. reflexivity.
Qed.

Lemma padStart_2_zero (s : string) :
  padStart 2 "0" s =
  match String.length s with
  | O => "00" ++ s
  | S O => "0" ++ s
  | _ => s
  end.
Proof. destruct s as [|c [|c' s']]; reflexivity. Qed.

Lemma below_by_cases (P : Z -> Prop) (b : nat) :
  (forall m : nat, (m < b)%nat -> P (Z.of_nat m)) ->
  forall n : Z, 0 <= n < Z.of_nat b -> P n.
Proof.
  intros H n Hn. rewrite <- (Z2Nat.id n) by lia. apply H. lia.
Qed.

Lemma Number_toString_length_below_10 (n : Z) :
  0 <= n < 10 -> String.length (Number_toString n) = 1%nat.
Proof.
  apply (below_by_cases
           (fun n => String.length (Number_toString n) = 1%nat) 10).
  intros m Hm.
  do 10 (destruct m as [|m]; [reflexivity|]). lia.
Qed.

Lemma Number_toString_length_below_60 (n : Z) :
  0 <= n < 60 -> (String.length (Number_toString n) <= 2)%nat.
Proof.
  apply (below_by_cases
           (fun n => (String.length (Number_toString n) <= 2)%nat) 60).
  intros m Hm.
  do 60 (destruct m as [|m]; [vm_compute; lia|]). lia.
Qed.

(** A numeral of fewer than two digits is worth less than ten. *)
Lemma short_numeral_below_10 (d : Decimal.uint) :
  (String.length (NilEmpty.string_of_uint d) < 2)%nat -> Z.of_uint d < 10.
Proof.
  destruct d as [|d|d|d|d|d|d|d|d|d|d]; simpl; intros H;
    try (vm_compute; reflexivity);
    destruct d; simpl in H; try lia; vm_compute; reflexivity.
Qed.

Lemma Number_toString_length_from_10 (n : Z) :
  10 <= n -> (2 <= String.length (Number_toString n))%nat.
Proof.
  intros Hn.
  destruct (Number_toString_nonneg n) as (d & _ & Hs & Hv); [lia|].
  destruct (Nat.lt_ge_cases (String.length (Number_toString n)) 2)
    as [Hlt|Hge]; [|exact Hge].
  rewrite Hs in Hlt. apply short_numeral_below_10 in Hlt. lia.
Qed.

Lemma padStart_twoDigits (n : Z) :
  0 <= n -> padStart 2 "0" (Number_toString n) = twoDigits n.
Proof.
  intros Hn. rewrite padStart_2_zero. unfold twoDigits.
  destruct (Z.ltb_spec n 10) as [Hlt|Hge].
  - rewrite Number_toString_length_below_10 by lia. reflexivity.
  - pose proof (Number_toString_length_from_10 n Hge) as Hlen.
    destruct (String.length (Number_toString n)) as [|[|k]];
      [lia | lia | reflexivity].
Qed.

Lemma readDecimal_twoDigits (n : Z) :
  0 <= n -> readDecimal (twoDigits n) = Some n.
Proof.
  intros Hn.
  destruct (Number_toString_nonneg n Hn) as (d & Hnil & Hs & Hv).
  unfold twoDigits, readDecimal. rewrite Hs.
  assert (Hread : NilZero.uint_of_string (NilEmpty.string_of_uint d) = Some d).
  { pose proof (NilZero.usu d Hnil) as E.
    unfold NilZero.string_of_uint in E.
    destruct d; try exact E. contradiction. }
  destruct (n <? 10)%Z.
  - change (("0" ++ NilEmpty.string_of_uint d)%string)
      with (String "0" (NilEmpty.string_of_uint d)).
    unfold NilZero.uint_of_string. simpl.
    rewrite NilEmpty.usu. simpl. rewrite <- Hv. reflexivity.
  - simpl. rewrite Hread. simpl. rewrite Hv. reflexivity.
Qed.

Lemma string_length_app (a b : string) :
  String.length (a ++ b) = (String.length a + String.length b)%nat.
Proof. induction a as [|c a IH]; simpl; [reflexivity | now rewrite IH]. Qed.

Lemma twoDigits_length (n : Z) :
  0 <= n -> (2 <= String.length (twoDigits n))%nat.
Proof.
  intros Hn. unfold twoDigits. rewrite string_length_app.
  destruct (Z.ltb_spec n 10).
  - rewrite Number_toString_length_below_10 by lia. simpl. lia.
  - pose proof (Number_toString_length_from_10 n H). simpl. lia.
Qed.

Lemma twoDigits_length_below_60 (n : Z) :
  0 <= n < 60 -> String.length (twoDigits n) = 2%nat.
Proof.
  intros Hn. pose proof (twoDigits_length n (proj1 Hn)) as Hlo.
  pose proof (Number_toString_length_below_60 n Hn) as Hhi.
  unfold twoDigits in *. rewrite string_length_app in *.
  destruct (Z.ltb_spec n 10).
  - rewrite Number_toString_length_below_10 by lia. reflexivity.
  - simpl in *. lia.
Qed.

(** C9.  For every non-negative integer count, [formatTime] is the text of
    [floor(count/60)], a colon, and the text of [count mod 60], each with a
    leading zero when it would be a single digit; the minutes field reads
    back as [floor(count/60)] itself (not wrapped at 60) and has at least
    two characters, the seconds field reads back as [count mod 60], lies in
    [0,59] and has exactly two characters; [formatTime 0 = "00:00"],
    [formatTime 65 = "01:05"], [formatTime 3600 = "60:00"]. *)
Theorem formatTime_minutes_colon_seconds (count : Z) :
  0 <= count ->
  formatTime count = twoDigits (count / 60) ++ ":" ++ twoDigits (count mod 60)
  /\ readDecimal (twoDigits (count / 60)) = Some (count / 60)
  /\ readDecimal (twoDigits (count mod 60)) = Some (count mod 60)
  /\ 0 <= count mod 60 <= 59
  /\ (2 <= String.length (twoDigits (count / 60)))%nat
  /\ String.length (twoDigits (count mod 60)) = 2%nat
  /\ formatTime 0 = "00:00"
  /\ formatTime 65 = "01:05"
  /\ formatTime 3600 = "60:00".
Proof.
  intros Hc.
  assert (Hm : 0 <= count / 60) by (apply Z.div_pos; lia).
  assert (Hs : 0 <= count mod 60 < 60) by (apply Z.mod_pos_bound; lia).
  repeat split; try reflexivity; try lia.
  - unfold formatTime. rewrite Z.rem_mod_nonneg by lia.
    rewrite !padStart_twoDigits by lia. reflexivity.
  - apply readDecimal_twoDigits, Hm.
  - apply readDecimal_twoDigits; lia.
  - apply twoDigits_length, Hm.
  - apply twoDigits_length_below_60, Hs.
Qed.

Lemma formatTime_minutes_colon_seconds_witness :
  formatTime 3725 = twoDigits (3725 / 60) ++ ":" ++ twoDigits (3725 mod 60)
  /\ readDecimal (twoDigits (3725 / 60)) = Some (3725 / 60)
  /\ readDecimal (twoDigits (3725 mod 60)) = Some (3725 mod 60)
  /\ 0 <= 3725 mod 60 <= 59
  /\ (2 <= String.length (twoDigits (3725 / 60)))%nat
  /\ String.length (twoDigits (3725 mod 60)) = 2%nat
  /\ formatTime 0 = "00:00"
  /\ formatTime 65 = "01:05"
  /\ formatTime 3600 = "60:00".
Proof.
  apply (formatTime_minutes_colon_seconds 3725). lia.
Defined.

(* ================================================================== *)
(** * Properties of the progress effect *)
(* ================================================================== *)

Lemma progressEffect_no_snap (secs : Z) (countingDown : bool)
    (d : DisplayState) :
  countingDown = true \/ secs / 60 = prevMinuteRef d ->
  progressEffect secs countingDown d = assignTiming (targetProgress secs) 300 d.
Proof.
  intros [-> | E]; unfold progressEffect.
  - rewrite andb_false_r. reflexivity.
  - rewrite E, Z.eqb_refl. reflexivity.
Qed.

(** C6.  One run of the effect: when [floor(secs/60)] differs from the
    stored minute and the timer is not counting down, the animated value is
    first set to 0 and the stored minute becomes [floor(secs/60)], and the
    easing toward the new target then starts from 0; when the timer is
    counting down, whatever the minute, the value and the stored minute are
    left alone and the easing starts from the value held. *)
Theorem progressEffect_minute_rollover (secs : Z) (countingDown : bool)
    (d : DisplayState) :
  (secs / 60 <> prevMinuteRef d -> countingDown = false ->
     progressEffect secs countingDown d =
       assignTiming (targetProgress secs) 300
         (setPrevMinute (secs / 60) (assignValue 0%Q d))
     /\ progressValue (progressEffect secs countingDown d) = 0%Q
     /\ animation (progressEffect secs countingDown d) =
          Some (mkTiming 0%Q (targetProgress secs) 300)
     /\ prevMinuteRef (progressEffect secs countingDown d) = secs / 60)
  /\ (countingDown = true ->
        progressEffect secs countingDown d =
          assignTiming (targetProgress secs) 300 d
        /\ progressValue (progressEffect secs countingDown d) =
             progressValue d
        /\ animation (progressEffect secs countingDown d) =
             Some (mkTiming (progressValue d) (targetProgress secs) 300)
        /\ prevMinuteRef (progressEffect secs countingDown d) =
             prevMinuteRef d).
Proof.
  split.
  - intros Hne ->. unfold progressEffect.
    destruct (Z.eqb_spec (secs / 60) (prevMinuteRef d)); [contradiction|].
    simpl. repeat split; reflexivity.
  - intros ->. rewrite progressEffect_no_snap by (left; reflexivity).
    repeat split; reflexivity.
Qed.

Lemma progressEffect_minute_rollover_witness :
  let d := progressEffect 59 false initialDisplay in
  (progressEffect 60 false d =
     assignTiming (targetProgress 60) 300
       (setPrevMinute (60 / 60) (assignValue 0%Q d))
   /\ progressValue (progressEffect 60 false d) = 0%Q
   /\ animation (progressEffect 60 false d) =
        Some (mkTiming 0%Q (targetProgress 60) 300)
   /\ prevMinuteRef (progressEffect 60 false d) = 60 / 60)
  /\ (progressEffect 59 true (progressEffect 60 false d) =
        assignTiming (targetProgress 59) 300 (progressEffect 60 false d)
      /\ progressValue (progressEffect 59 true (progressEffect 60 false d)) =
           progressValue (progressEffect 60 false d)
      /\ animation (progressEffect 59 true (progressEffect 60 false d)) =
           Some (mkTiming (progressValue (progressEffect 60 false d))
                   (targetProgress 59) 300)
      /\ prevMinuteRef (progressEffect 59 true (progressEffect 60 false d)) =
           prevMinuteRef (progressEffect 60 false d)).
Proof.
  intro d. split.
  - apply (proj1 (progressEffect_minute_rollover 60 false d));
      [vm_compute; intro E; discriminate E | reflexivity].
  - apply (proj2 (progressEffect_minute_rollover 59 true
                    (progressEffect 60 false d))).
    reflexivity.
Defined.

(** Count 59 to 60 while Running, from any value the ring has reached: the
    easing starts at 0 and its target is 0. *)
Lemma rollover_59_to_60 (v : Q) (a : option Timing) :
  exists t : Timing,
    animation (progressEffect 60 false (mkDisplay v a 0)) = Some t
    /\ startValue t = 0%Q
    /\ (toValue t == 0)%Q.
Proof.
  eexists. split; [reflexivity|]. split; reflexivity.
Qed.

(* ================================================================== *)
(** * Further properties of the timer engine *)
(* ================================================================== *)

Lemma run_repeat_Tick (k : nat) (s : TimerState) :
  run (repeat Tick k) s = ticks k s.
Proof.
  revert s. induction k as [|k IH]; intros s; [reflexivity|].
  simpl. rewrite IH. symmetry. exact (Nat.iter_succ_r k _ tick s).
Qed.

Lemma ticks_add (a b : nat) (s : TimerState) :
  ticks (a + b) s = ticks b (ticks a s).
Proof.
  unfold ticks. rewrite Nat.add_comm. apply Nat.iter_add.
Qed.

Lemma running_ticks (n : nat) (s : TimerState) :
  isRunning s = true -> isCountingDown s = false ->
  ticks n s = mkTimer (seconds s + Z.of_nat n) true false (isAutoRestart s).
Proof.
  intros Hr Hc. induction n as [|n IH].
  - destruct s as [c r d a]; simpl in *; subst.
    unfold ticks; simpl. f_equal. lia.
  - rewrite ticks_S, IH, tick_running by reflexivity.
    unfold setSeconds; simpl. f_equal. lia.
Qed.

Lemma idle_ticks (n : nat) (s : TimerState) :
  isRunning s = false -> isCountingDown s = false -> ticks n s = s.
Proof.
  intros Hr Hc. induction n as [|n IH]; [reflexivity|].
  rewrite ticks_S, IH. apply tick_idle; assumption.
Qed.

Lemma run_session (n m : nat) (s : TimerState) :
  run (session n m) s = ticks m (stop (ticks n (start s))).
Proof.
  unfold session. rewrite !run_app. simpl.
  rewrite !run_repeat_Tick. reflexivity.
Qed.

Lemma stop_running_positive (c : Z) (a : bool) :
  0 < c -> stop (mkTimer c true false a) = mkTimer c false true a.
Proof.
  intros Hc. unfold stop; simpl.
  destruct (Z.ltb_spec 0 c); [reflexivity | lia].
Qed.

(** A countdown from [k] is over after [k + 1] ticks. *)
Lemma countdown_completes (k : nat) (r a : bool) :
  ticks (S k) (mkTimer (Z.of_nat k) r true a) = mkTimer 0 (a || r) false a.
Proof.
  rewrite ticks_S, countdown_ticks by (simpl; auto; lia).
  rewrite countdown_tick_zero by (simpl; auto; lia). reflexivity.
Qed.

(** X1.  While Running, [n] ticks add exactly [n] to the count, whatever
    the count was, and leave the timer Running with the count-up interval
    installed and autoRestart as it was. *)
Theorem count_up_adds_one_per_tick (n : nat) (s : TimerState) :
  mode s = Running ->
  seconds (ticks n s) = seconds s + Z.of_nat n
  /\ mode (ticks n s) = Running
  /\ scheduled (ticks n s) = Some CountUp
  /\ isAutoRestart (ticks n s) = isAutoRestart s.
Proof.
  intros Hm. destruct (mode_Running_inv s Hm) as [Hr Hc].
  rewrite (running_ticks n s Hr Hc). repeat split; reflexivity.
Qed.

Lemma count_up_adds_one_per_tick_witness :
  let s := run [Start; Tick] initial in
  mode s = Running
  /\ seconds (ticks 90 s) = seconds s + Z.of_nat 90
  /\ mode (ticks 90 s) = Running
  /\ scheduled (ticks 90 s) = Some CountUp
  /\ isAutoRestart (ticks 90 s) = isAutoRestart s.
Proof.
  intro s. split; [reflexivity|].
  apply (count_up_adds_one_per_tick 90 s). reflexivity.
Defined.

(** X2.  With autoRestart off, a session of start, [n] ticks, stop, and any
    [m > n] further ticks brings the timer back to its initial state: the
    countdown takes [n + 1] ticks and later ticks find no interval. *)
Theorem session_returns_to_initial (n m : nat) :
  (n < m)%nat -> run (session n m) initial = initial.
Proof.
  intros Hnm. rewrite run_session.
  change (start initial) with (mkTimer 0 true false false).
  rewrite (running_ticks n (mkTimer 0 true false false)) by reflexivity.
  cbn [seconds isAutoRestart]. rewrite Z.add_0_l.
  destruct n as [|n].
  - apply idle_ticks; reflexivity.
  - rewrite stop_running_positive by lia.
    replace m with (S (S n) + (m - S (S n)))%nat by lia.
    rewrite ticks_add, countdown_completes.
    apply idle_ticks; reflexivity.
Qed.

Lemma session_returns_to_initial_witness :
  run (session 3 5) initial = initial.
Proof.
  apply (session_returns_to_initial 3 5). lia.
Defined.

(** X3.  With autoRestart on, a session of start, [n > 0] ticks, stop, and
    [n + 1 + m] further ticks ends Running at count [m]: the countdown takes
    [n + 1] ticks, the last of which restarts the count-up at 0. *)
Theorem session_restarts_with_auto_restart (n m : nat) :
  (0 < n)%nat ->
  run (session n (S n + m)) (toggleAutoRestart initial) =
  mkTimer (Z.of_nat m) true false true.
Proof.
  intros Hn. rewrite run_session.
  change (start (toggleAutoRestart initial)) with (mkTimer 0 true false true).
  rewrite (running_ticks n (mkTimer 0 true false true)) by reflexivity.
  cbn [seconds isAutoRestart]. rewrite Z.add_0_l.
  rewrite stop_running_positive by lia.
  rewrite ticks_add, countdown_completes.
  rewrite running_ticks by reflexivity. reflexivity.
Qed.

Lemma session_restarts_with_auto_restart_witness :
  run (session 2 (S 2 + 4)) (toggleAutoRestart initial) =
  mkTimer (Z.of_nat 4) true false true.
Proof.
  apply (session_restarts_with_auto_restart 2 4). lia.
Defined.



(** *** What a single event can change *)

Lemma step_isAutoRestart (e : Event) (s : TimerState) :
  isAutoRestart (step e s) =
  if isToggle e then negb (isAutoRestart s) else isAutoRestart s.
Proof.
  destruct e, s as [n [|] [|] [|]]; unfold step; unfold_timer; split_tests;
    reflexivity.
Qed.

Lemma countEvents_cons (p : Event -> bool) (e : Event) (es : list Event) :
  countEvents p (e :: es) =
  if p e then S (countEvents p es) else countEvents p es.
Proof. unfold countEvents; simpl. destruct (p e); reflexivity. Qed.

Lemma step_seconds_nonneg (e : Event) (s : TimerState) :
  0 <= seconds s -> 0 <= seconds (step e s).
Proof.
  destruct e, s as [n [|] [|] [|]]; unfold step; unfold_timer; split_tests;
    intros; lia.
Qed.

Lemma step_seconds_growth (e : Event) (s : TimerState) :
  0 <= seconds s ->
  seconds (step e s) <= seconds s + (if isTick e then 1 else 0).
Proof.
  destruct e, s as [n [|] [|] [|]]; unfold step; unfold_timer; split_tests;
    intros; lia.
Qed.

(** X6.  The autoRestart flag after any sequence of events from any state
    is the flag before, flipped once per [toggleAutoRestart()] in the
    sequence: no other command and no tick touches it.  A sequence that
    ends with [reset()] therefore leaves count 0, both flags down and that
    autoRestart value, whatever came before. *)
Theorem auto_restart_follows_toggles_only (es : list Event) (s : TimerState) :
  isAutoRestart (run es s) =
    xorb (isAutoRestart s) (Nat.odd (countEvents isToggle es))
  /\ run (es ++ [Reset])%list s =
       mkTimer 0 false false
         (xorb (isAutoRestart s) (Nat.odd (countEvents isToggle es))).
Proof.
  assert (Hflag : forall l st, isAutoRestart (run l st) =
            xorb (isAutoRestart st) (Nat.odd (countEvents isToggle l))).
  { induction l as [|e l IH]; intros st.
    - simpl. destruct (isAutoRestart st); reflexivity.
    - simpl run. rewrite IH, step_isAutoRestart, countEvents_cons.
      destruct (isToggle e); [|reflexivity].
      rewrite Nat.odd_succ, <- Nat.negb_odd.
      destruct (isAutoRestart st), (Nat.odd (countEvents isToggle l));
        reflexivity. }
  split; [apply Hflag|].
  rewrite run_app. simpl. rewrite <- Hflag.
  destruct (run es s); reflexivity.
Qed.

(** X7.  The count never exceeds the number of ticks that have fired since
    mount. *)
Theorem count_bounded_by_ticks (es : list Event) :
  seconds (run es initial) <= Z.of_nat (countEvents isTick es).
Proof.
  assert (H : forall l st, 0 <= seconds st ->
            seconds (run l st) <= seconds st + Z.of_nat (countEvents isTick l)).
  { induction l as [|e l IH]; intros st Hst.
    - simpl. unfold countEvents; simpl. lia.
    - simpl run. pose proof (step_seconds_nonneg e st Hst) as Hn.
      pose proof (step_seconds_growth e st Hst) as Hg.
      specialize (IH (step e st) Hn).
      rewrite countEvents_cons. destruct (isTick e); lia. }
  apply (H es initial). simpl. lia.
Qed.

(** X8.  [toggleAutoRestart()] commutes with [start()], [stop()] and
    [reset()] in every state, and with a tick in every state except a
    countdown standing at count 0 (or below): the flag matters only to the
    tick that ends a countdown. *)
Theorem toggle_matters_only_at_countdown_end (s : TimerState) :
  start (toggleAutoRestart s) = toggleAutoRestart (start s)
  /\ stop (toggleAutoRestart s) = toggleAutoRestart (stop s)
  /\ reset (toggleAutoRestart s) = toggleAutoRestart (reset s)
  /\ ((isCountingDown s = true -> 0 < seconds s) ->
        tick (toggleAutoRestart s) = toggleAutoRestart (tick s)).
Proof.
  destruct s as [n [|] [|] [|]]; unfold_timer; split_tests;
    repeat split; intros; try reflexivity;
    match goal with H : true = true -> _ |- _ => specialize (H eq_refl); lia end.
Qed.

Lemma toggle_matters_only_at_countdown_end_witness :
  let s := run [Start; Tick; Tick; Stop] initial in
  tick (toggleAutoRestart s) = toggleAutoRestart (tick s).
Proof.
  intro s.
  apply (proj2 (proj2 (proj2 (toggle_matters_only_at_countdown_end s)))).
  intros _. reflexivity.
Defined.

(** X9.  Calling [start()], [stop()] or [reset()] twice in a row is the
    same as calling it once, and calling [toggleAutoRestart()] twice in a
    row changes nothing. *)
Theorem commands_repeated (s : TimerState) :
  start (start s) = start s
  /\ stop (stop s) = stop s
  /\ reset (reset s) = reset s
  /\ toggleAutoRestart (toggleAutoRestart s) = s.
Proof.
  destruct s as [n [|] [|] [|]]; unfold_timer; split_tests;
    repeat split; reflexivity.
Qed.

(** X10.  The start/stop button in a reachable state.  During a countdown
    it reads "Start" and pressing it does nothing.  While Running it reads
    "Stop" and pressing it starts a countdown, or goes to Ready when the
    count is 0.  In Ready it reads "Start", pressing it gives Running, and
    pressing it again at once gives the Ready state back. *)
Theorem main_button_by_mode (s : TimerState) :
  reachable s ->
  (mode s = CountingDown ->
     mainButtonLabel s = "Start" /\ mainButtonPress s = s)
  /\ (mode s = Running ->
        mainButtonLabel s = "Stop"
        /\ mode (mainButtonPress s) =
             (if 0 <? seconds s then CountingDown else Ready)%Z)
  /\ (mode s = Ready ->
        mainButtonLabel s = "Start"
        /\ mode (mainButtonPress s) = Running
        /\ mainButtonPress (mainButtonPress s) = s).
Proof.
  intros Hreach. destruct (reachable_inv s Hreach) as (Hn & _ & Hexcl).
  unfold mainButtonLabel, mainButtonPress.
  destruct s as [n [|] [|] a]; unfold_timer;
    try (specialize (Hexcl eq_refl); discriminate);
    repeat split; intros; try discriminate; try reflexivity;
    split_tests; try discriminate; try lia; subst; try reflexivity.
Qed.

Lemma main_button_by_mode_witness :
  let down := run [Start; Tick; Stop] initial in
  let up := run [Start; Tick] initial in
  (mainButtonLabel down = "Start" /\ mainButtonPress down = down)
  /\ (mainButtonLabel up = "Stop"
      /\ mode (mainButtonPress up) =
           (if 0 <? seconds up then CountingDown else Ready)%Z)
  /\ (mainButtonLabel initial = "Start"
      /\ mode (mainButtonPress initial) = Running
      /\ mainButtonPress (mainButtonPress initial) = initial).
Proof.
  intros down up.
  split; [|split].
  - apply (proj1 (main_button_by_mode down
                    (ex_intro _ [Start; Tick; Stop] eq_refl))).
    reflexivity.
  - apply (proj1 (proj2 (main_button_by_mode up
                           (ex_intro _ [Start; Tick] eq_refl)))).
    reflexivity.
  - apply (proj2 (proj2 (main_button_by_mode initial
                           (ex_intro _ [] eq_refl)))).
    reflexivity.
Defined.

(* ================================================================== *)
(** * Further properties of formatTime *)
(* ================================================================== *)

Lemma formatTime_fields (count : Z) :
  0 <= count ->
  formatTime count = twoDigits (count / 60) ++ ":" ++ twoDigits (count mod 60).
Proof.
  intros Hc. unfold formatTime. rewrite Z.rem_mod_nonneg by lia.
  assert (0 <= count / 60) by (apply Z.div_pos; lia).
  assert (0 <= count mod 60 < 60) by (apply Z.mod_pos_bound; lia).
  rewrite !padStart_twoDigits by lia. reflexivity.
Qed.

(** Two texts that agree after appending tails of the same length agree
    part by part. *)
Lemma string_app_inv_tail (a a' b b' : string) :
  a ++ b = a' ++ b' -> String.length b = String.length b' ->
  a = a' /\ b = b'.
Proof.
  revert a'. induction a as [|c a IH]; intros [|c' a'] Heq Hlen; simpl in *.
  - auto.
  - subst b. simpl in Hlen. rewrite string_length_app in Hlen. lia.
  - subst b'. simpl in Hlen. rewrite string_length_app in Hlen. lia.
  - injection Heq as -> Heq. destruct (IH a' Heq Hlen) as [-> ->]. auto.
Qed.

(** X11.  Different non-negative counts never show the same label. *)
Theorem formatTime_injective (a b : Z) :
  0 <= a -> 0 <= b -> formatTime a = formatTime b -> a = b.
Proof.
  intros Ha Hb Heq.
  rewrite (formatTime_fields a Ha), (formatTime_fields b Hb) in Heq.
  assert (Hsa : 0 <= a mod 60 < 60) by (apply Z.mod_pos_bound; lia).
  assert (Hsb : 0 <= b mod 60 < 60) by (apply Z.mod_pos_bound; lia).
  assert (Hma : 0 <= a / 60) by (apply Z.div_pos; lia).
  assert (Hmb : 0 <= b / 60) by (apply Z.div_pos; lia).
  apply string_app_inv_tail in Heq.
  - destruct Heq as [Hm Hs]. injection Hs as Hs.
    pose proof (readDecimal_twoDigits (a / 60) Hma) as Ra.
    pose proof (readDecimal_twoDigits (a mod 60) (proj1 Hsa)) as Sa.
    rewrite Hm, (readDecimal_twoDigits (b / 60) Hmb) in Ra.
    rewrite Hs, (readDecimal_twoDigits (b mod 60) (proj1 Hsb)) in Sa.
    injection Ra as Ra. injection Sa as Sa.
    rewrite (Z.div_mod a 60), (Z.div_mod b 60) by lia. congruence.
  - simpl. rewrite !twoDigits_length_below_60 by assumption. reflexivity.
Qed.

Lemma formatTime_injective_witness :
  formatTime 125 = formatTime (2 * 60 + 5) /\ 125 = 2 * 60 + 5.
Proof.
  split; [reflexivity|].
  apply (formatTime_injective 125 (2 * 60 + 5)); [lia | lia | reflexivity].
Defined.

Lemma Number_toString_length_below_100 (n : Z) :
  0 <= n < 100 -> (String.length (Number_toString n) <= 2)%nat.
Proof.
  apply (below_by_cases
           (fun n => (String.length (Number_toString n) <= 2)%nat) 100).
  intros m Hm.
  do 100 (destruct m as [|m]; [vm_compute; lia|]). lia.
Qed.

(** X12.  The label of a non-negative count has at least five characters,
    and exactly five while the count is below 6000 (one hundred minutes). *)
Theorem formatTime_length (count : Z) :
  0 <= count ->
  (5 <= String.length (formatTime count))%nat
  /\ (count < 6000 -> String.length (formatTime count) = 5%nat).
Proof.
  intros Hc. rewrite (formatTime_fields count Hc).
  assert (Hs : 0 <= count mod 60 < 60) by (apply Z.mod_pos_bound; lia).
  assert (Hm : 0 <= count / 60) by (apply Z.div_pos; lia).
  rewrite !string_length_app. simpl.
  rewrite (twoDigits_length_below_60 _ Hs).
  pose proof (twoDigits_length (count / 60) Hm) as Hlo.
  split; [lia|]. intros Hlt.
  assert (Hm100 : count / 60 < 100)
    by (apply Z.div_lt_upper_bound; lia).
  pose proof (Number_toString_length_below_100 (count / 60) (conj Hm Hm100))
    as Hhi.
  unfold twoDigits in *. rewrite string_length_app in *.
  destruct (Z.ltb_spec (count / 60) 10).
  - rewrite Number_toString_length_below_10 by lia. reflexivity.
  - simpl in *. lia.
Qed.

Lemma formatTime_length_witness :
  (5 <= String.length (formatTime 5999))%nat
  /\ String.length (formatTime 5999) = 5%nat.
Proof.
  destruct (formatTime_length 5999) as [H1 H2]; [lia|].
  split; [exact H1 | apply H2; lia].
Defined.

(** X13.  On a negative count the label is not of the MM:SS form: it
    begins with a minus sign, the minutes field being the unpadded text of
    the negative [floor(count/60)]. *)
Theorem formatTime_negative_starts_with_minus (count : Z) :
  count < 0 ->
  exists rest : string, formatTime count = String "-" rest.
Proof.
  intros Hc. unfold formatTime.
  assert (Hm : count / 60 < 0) by (apply Z.div_lt_upper_bound; lia).
  destruct (count / 60) as [|p|p] eqn:E; try lia.
  unfold Number_toString. simpl Z.to_int. simpl NilZero.string_of_int.
  pose proof (DecimalPos.Unsigned.to_uint_nonnil p) as Hnil.
  unfold NilZero.string_of_uint.
  destruct (Pos.to_uint p) as [|d|d|d|d|d|d|d|d|d|d]; try contradiction;
    simpl; eexists; reflexivity.
Qed.

Lemma formatTime_negative_starts_with_minus_witness :
  exists rest : string, formatTime (-5) = String "-" rest.
Proof.
  apply (formatTime_negative_starts_with_minus (-5)). lia.
Defined.

(* ================================================================== *)
(** * Further properties of the display *)
(* ================================================================== *)

Lemma CIRCUMFERENCE_positive : (0 < CIRCUMFERENCE)%Q.
Proof. reflexivity. Qed.

Lemma fraction_of_minute_scaled (r r' : Z) :
  r < r' ->
  (inject_Z r / 60 * CIRCUMFERENCE < inject_Z r' / 60 * CIRCUMFERENCE)%Q.
Proof.
  intros Hlt.
  apply Qmult_lt_compat_r; [apply CIRCUMFERENCE_positive|].
  unfold Qdiv. apply Qmult_lt_compat_r; [reflexivity|].
  rewrite <- Zlt_Qlt. exact Hlt.
Qed.

(** X14.  For a non-negative count the target of the ring lies in
    [0, CIRCUMFERENCE), so the dash offset of a ring settled on its target
    lies in (0, CIRCUMFERENCE]; the target is the same 60 seconds later,
    and it grows with each second that does not complete a minute. *)
Theorem targetProgress_within_one_turn (secs : Z) :
  0 <= secs ->
  (0 <= targetProgress secs)%Q
  /\ (targetProgress secs < CIRCUMFERENCE)%Q
  /\ (forall a m,
        (0 < strokeDashoffset (mkDisplay (targetProgress secs) a m))%Q
        /\ (strokeDashoffset (mkDisplay (targetProgress secs) a m)
              <= CIRCUMFERENCE)%Q)
  /\ targetProgress (secs + 60) = targetProgress secs
  /\ ((secs + 1) mod 60 <> 0 ->
        (targetProgress secs < targetProgress (secs + 1))%Q).
Proof.
  intros Hs. unfold targetProgress, strokeDashoffset.
  assert (Hr : 0 <= secs mod 60 < 60) by (apply Z.mod_pos_bound; lia).
  rewrite !Z.rem_mod_nonneg by lia.
  assert (Hlo : (0 <= inject_Z (secs mod 60) / 60 * CIRCUMFERENCE)%Q).
  { apply Qmult_le_0_compat; [|apply Qlt_le_weak, CIRCUMFERENCE_positive].
    apply Qle_shift_div_l; [reflexivity|].
    rewrite Qmult_0_l. change 0%Q with (inject_Z 0).
    rewrite <- Zle_Qle. lia. }
  assert (Hhi : (inject_Z (secs mod 60) / 60 * CIRCUMFERENCE < CIRCUMFERENCE)%Q).
  { rewrite <- (Qmult_1_l CIRCUMFERENCE) at 2.
    apply Qmult_lt_compat_r; [apply CIRCUMFERENCE_positive|].
    apply Qlt_shift_div_r; [reflexivity|].
    rewrite Qmult_1_l. change 60%Q with (inject_Z 60).
    rewrite <- Zlt_Qlt. lia. }
  split; [exact Hlo|]. split; [exact Hhi|]. split; [|split].
  - intros a m. cbn [progressValue].
    set (t := (inject_Z (secs mod 60) / 60 * CIRCUMFERENCE)%Q) in *.
    clearbody t. split; lra.
  - assert (E : (secs + 60) mod 60 = secs mod 60).
    { rewrite <- (Z.mod_add secs 1 60) by lia. f_equal. }
    rewrite E. reflexivity.
  - intros Hnz. apply fraction_of_minute_scaled.
    pose proof (Z.div_mod secs 60). pose proof (Z.div_mod (secs + 1) 60).
    pose proof (Z.mod_pos_bound (secs + 1) 60).
    Z.div_mod_to_equations. lia.
Qed.

Lemma targetProgress_within_one_turn_witness :
  (0 <= targetProgress 75)%Q
  /\ (targetProgress 75 < CIRCUMFERENCE)%Q
  /\ (0 < strokeDashoffset (mkDisplay (targetProgress 75) None 1))%Q
  /\ targetProgress (75 + 60) = targetProgress 75
  /\ (targetProgress 75 < targetProgress (75 + 1))%Q.
Proof.
  destruct (targetProgress_within_one_turn 75) as (H1 & H2 & H3 & H4 & H5);
    [lia|].
  split; [exact H1|]. split; [exact H2|].
  split; [exact (proj1 (H3 None 1))|]. split; [exact H4|].
  apply H5. vm_compute. intro E; discriminate E.
Defined.

(** X15.  The gradient is defined for every integer count: the fixed pair
    while counting down, the single entry of [MINUTE_COLORS] otherwise; the
    lookup by minute never falls outside the array. *)
Theorem gradientColors_always_defined (secs : Z) (countingDown : bool) :
  gradientColors secs countingDown =
  Some (if countingDown then ("#ff6b6b", "#ff8a8a")
        else ("#9c27b0", "#8b5cf6")).
Proof.
  unfold gradientColors. destruct countingDown; [reflexivity|].
  change (Z.of_nat (List.length MINUTE_COLORS)) with 1.
  rewrite Z.rem_1_r. reflexivity.
Qed.

Lemma progressEffect_tracks_minute (secs : Z) (d : DisplayState) :
  prevMinuteRef (progressEffect secs false d) = secs / 60.
Proof.
  unfold progressEffect.
  destruct (Z.eqb_spec (secs / 60) (prevMinuteRef d)) as [E|E]; simpl; auto.
Qed.

Lemma next_second_same_minute (secs : Z) :
  (secs + 1) / 60 = secs / 60 <-> (secs + 1) mod 60 <> 0.
Proof.
  pose proof (Z.mod_pos_bound secs 60).
  pose proof (Z.mod_pos_bound (secs + 1) 60).
  Z.div_mod_to_equations. lia.
Qed.

(** X16.  Counting up, from whatever the display held: once the effect has
    run for a count, its run for the next count sets the ring to 0 first
    exactly when the next count is a multiple of 60, and otherwise eases
    from the value held; either way the stored minute follows the count. *)
Theorem count_up_snaps_exactly_on_the_minute (secs : Z) (d0 : DisplayState) :
  let d := progressEffect secs false d0 in
  let d' := progressEffect (secs + 1) false d in
  prevMinuteRef d' = (secs + 1) / 60
  /\ ((secs + 1) mod 60 = 0 ->
        progressValue d' = 0%Q
        /\ animation d' =
             Some (mkTiming 0%Q (targetProgress (secs + 1)) 300))
  /\ ((secs + 1) mod 60 <> 0 ->
        progressValue d' = progressValue d
        /\ animation d' =
             Some (mkTiming (progressValue d) (targetProgress (secs + 1)) 300)).
Proof.
  intros d d'. subst d'.
  assert (Hprev : prevMinuteRef d = secs / 60)
    by apply progressEffect_tracks_minute.
  clearbody d.
  split; [apply progressEffect_tracks_minute|].
  pose proof (next_second_same_minute secs) as Hsame.
  unfold progressEffect. rewrite Hprev.
  destruct (Z.eqb_spec ((secs + 1) / 60) (secs / 60)) as [E|E]; simpl;
    split; intros Hm.
  - apply Hsame in E. contradiction.
  - split; reflexivity.
  - split; reflexivity.
  - exfalso. apply E, Hsame, Hm.
Qed.

Lemma count_up_snaps_exactly_on_the_minute_witness :
  let d59 := progressEffect 59 false initialDisplay in
  let d60 := progressEffect 60 false d59 in
  let d61 := progressEffect 61 false d60 in
  (progressValue d60 = 0%Q
   /\ animation d60 = Some (mkTiming 0%Q (targetProgress 60) 300))
  /\ (progressValue d61 = progressValue d60
      /\ animation d61 =
           Some (mkTiming (progressValue d60) (targetProgress 61) 300)).
Proof.
  intros d59 d60 d61. split.
  - apply (proj1 (proj2 (count_up_snaps_exactly_on_the_minute
                           59 initialDisplay))).
    reflexivity.
  - apply (proj2 (proj2 (count_up_snaps_exactly_on_the_minute 60 d59))).
    vm_compute. intro E; discriminate E.
Defined.

(** X17.  Running the effect a second time with the same count and flag,
    before the ring has moved, changes nothing: it does not set the ring to
    0 again and it asks for the same easing. *)
Theorem progressEffect_rerun (secs : Z) (countingDown : bool)
    (d : DisplayState) :
  progressEffect secs countingDown (progressEffect secs countingDown d) =
  progressEffect secs countingDown d.
Proof.
  destruct countingDown.
  - rewrite !progressEffect_no_snap by (left; reflexivity). reflexivity.
  - rewrite (progressEffect_no_snap secs false (progressEffect secs false d))
      by (right; symmetry; apply progressEffect_tracks_minute).
    unfold progressEffect.
    destruct (Z.eqb_spec (secs / 60) (prevMinuteRef d)); reflexivity.
Qed.

(* ================================================================== *)
(** * When a command or a tick changes nothing *)
(* ================================================================== *)

(** X18.  [start()] leaves the state as it is exactly when the timer is
    Running or counting down; [stop()] exactly when it is not Running;
    [reset()] exactly when the count is 0 with both flags down; a tick
    exactly when both flags are down. *)
Theorem unchanged_exactly_when (s : TimerState) :
  (start s = s <-> isRunning s = true \/ isCountingDown s = true)
  /\ (stop s = s <-> isRunning s = false)
  /\ (reset s = s <->
        seconds s = 0 /\ isRunning s = false /\ isCountingDown s = false)
  /\ (tick s = s <-> isRunning s = false /\ isCountingDown s = false).
Proof.
  destruct s as [n [|] [|] a]; unfold_timer; split_tests;
    repeat split; intros;
    repeat match goal with
      | H : _ /\ _ |- _ => destruct H
      | H : _ \/ _ |- _ => destruct H
      | H : mkTimer _ _ _ _ = mkTimer _ _ _ _ |- _ => injection H as ?
      end;
    subst; try discriminate; try lia; auto;
    try (f_equal; lia);
    try (destruct a; simpl in *; discriminate).
Qed.

Lemma unchanged_exactly_when_witness :
  let down := run [Start; Tick; Stop] initial in
  start down = down /\ stop down = down
  /\ reset initial = initial /\ tick initial = initial.
Proof.
  intro down.
  split; [|split; [|split]].
  - apply (proj1 (unchanged_exactly_when down)). right. reflexivity.
  - apply (proj1 (proj2 (unchanged_exactly_when down))). reflexivity.
  - apply (proj1 (proj2 (proj2 (unchanged_exactly_when initial)))).
    repeat split.
  - apply (proj2 (proj2 (proj2 (unchanged_exactly_when initial)))).
    split; reflexivity.
Defined.
